(** * http-json-client: the doRpc request/response pipeline

    A shallow embedding of the library's module (classes [RpcError] ... [ServerError],
    [doFetch], [contentTypeHeader], [hasBody], [readJsonObject],
    [tryReadJsonObject], [tryReadText], [doRpc]) together with the small part
    of the JavaScript platform the code relies on: strings of 8-bit code units
    for header values, [String.prototype.toLowerCase], [Number.parseInt],
    [JSON.stringify], [Headers.get], promises that resolve, reject or stay
    pending, and the timer that races the transport. *)

From Stdlib Require Import ZArith List String Ascii Bool Lia.
From Stdlib Require Import DecimalString DecimalPos.
Import ListNotations.
Open Scope string_scope.
Open Scope Z_scope.

(** ** JavaScript strings

    Header values are byte strings: every code unit is in 0..255, which is
    what [ascii] holds.  Strings taken from a body are only concatenated and
    compared by the program, never inspected. *)
Module JsString.

Definition code (c : ascii) : Z := Z.of_N (N_of_ascii c).

Definition of_code (z : Z) : ascii := ascii_of_N (Z.to_N z).

(** [String.prototype.startsWith]. *)
Definition startsWith (s p : string) : bool := String.prefix p s.

(** Lower case of one code unit: A-Z, and the Latin-1 capitals
    U+00C0..U+00DE except the multiplication sign U+00D7. *)
Definition lower_unit (c : ascii) : ascii :=
  let n := code c in
  if ((65 <=? n) && (n <=? 90))
     || ((192 <=? n) && (n <=? 222) && negb (n =? 215))
  then of_code (n + 32) else c.

(** [String.prototype.toLowerCase]. *)
Fixpoint toLowerCase (s : string) : string :=
  match s with
  | EmptyString => EmptyString
  | String c r => String (lower_unit c) (toLowerCase r)
  end.

(** Byte-lowercasing, as the Fetch standard applies it to header names. *)
Definition byte_lower_unit (c : ascii) : ascii :=
  let n := code c in
  if (65 <=? n) && (n <=? 90) then of_code (n + 32) else c.

Fixpoint byte_lowercase (s : string) : string :=
  match s with
  | EmptyString => EmptyString
  | String c r => String (byte_lower_unit c) (byte_lowercase r)
  end.

(** White space and line terminators that [parseInt] skips. *)
Definition isWhiteSpace (c : ascii) : bool :=
  let n := code c in
  ((9 <=? n) && (n <=? 13)) || (n =? 32) || (n =? 160).

Fixpoint trimStart (s : string) : string :=
  match s with
  | String c r => if isWhiteSpace c then trimStart r else s
  | EmptyString => EmptyString
  end.

(** Value of a digit in a radix up to 16, if it is one. *)
Definition digitValue (radix : Z) (c : ascii) : option Z :=
  let n := code c in
  let v := if (48 <=? n) && (n <=? 57) then Some (n - 48)
           else if (97 <=? n) && (n <=? 102) then Some (n - 87)
           else if (65 <=? n) && (n <=? 70) then Some (n - 55)
           else None in
  match v with
  | Some d => if d <? radix then Some d else None
  | None => None
  end.

(** The longest prefix of digits, folded from the left; [None] when the
    prefix is empty. *)
Fixpoint leadingDigits (radix : Z) (acc : option Z) (s : string) : option Z :=
  match s with
  | EmptyString => acc
  | String c r =>
      match digitValue radix c with
      | Some d =>
          leadingDigits radix
            (Some (match acc with Some a => a * radix + d | None => d end)) r
      | None => acc
      end
  end.

Definition hexDigit (n : Z) : ascii :=
  if n <? 10 then of_code (48 + n) else of_code (87 + n).

(** Signed decimal text of an integer-valued number, as a template literal
    prints it. *)
Definition ofInteger (z : Z) : string := NilZero.string_of_int (Z.to_int z).

End JsString.

(** ** Numbers produced by [Number.parseInt]

    [NaN] or an integer.  The double nearest to a non-zero integer has the
    sign of that integer, so comparing the exact integer with 0 is comparing
    the JavaScript number with 0. *)
Inductive JsInt : Type :=
| NaN
| Int (z : Z).

(** [Number.parseInt(s)] with no radix argument. *)
Definition parseInt (s : string) : JsInt :=
  let s1 := JsString.trimStart s in
  let '(sign, s2) :=
    match s1 with
    | String "-" r => (-1, r)
    | String "+" r => (1, r)
    | _ => (1, s1)
    end in
  let '(radix, s3) :=
    match s2 with
    | String "0" (String "x" r) => (16, r)
    | String "0" (String "X" r) => (16, r)
    | _ => (10, s2)
    end in
  match JsString.leadingDigits radix None s3 with
  | None => NaN
  | Some m => Int (sign * m)
  end.

(** [n > 0] on a parsed number; comparisons with [NaN] are false. *)
Definition gt0 (n : JsInt) : bool :=
  match n with
  | NaN => false
  | Int z => 0 <? z
  end.

(** ** Thrown values

    The four exported error classes, and the platform's own exceptions that
    the program can meet: [TypeError], [SyntaxError] and the [AbortError]
    of an aborted fetch. *)
Inductive RpcError : Type :=
| TimeoutError
| NetworkError
| UserError (message : string) (status : Z)
| ServerError (message : string) (status : option Z).

Inductive NativeError : Type :=
| JsTypeError (message : string)
| JsSyntaxError (message : string)
| JsAbortError.

Inductive Exn : Type :=
| Rpc (e : RpcError)
| Native (e : NativeError).

(** [new UserError(message, status)]. *)
Definition new_UserError (message : string) (status : Z) : RpcError :=
  UserError message status.

(** [new ServerError(message, status?)]: the constructor prefixes the
    message. *)
Definition new_ServerError (message : string) (status : option Z) : RpcError :=
  ServerError ("Error talking to server: " ++ message) status.

(** The [message] property of an error value. *)
Definition message_of (e : RpcError) : string :=
  match e with
  | TimeoutError => "Error talking to server.  Please try again."
  | NetworkError => "Error connecting to server.  Please check your connection."
  | UserError m _ => m
  | ServerError m _ => m
  end.

(** The [status] property; [None] is [undefined]. *)
Definition status_of (e : RpcError) : option Z :=
  match e with
  | UserError _ s => Some s
  | ServerError _ s => s
  | TimeoutError | NetworkError => None
  end.

(** [e instanceof SyntaxError]. *)
Definition instanceof_SyntaxError (e : Exn) : bool :=
  match e with
  | Native (JsSyntaxError _) => true
  | _ => false
  end.

(** ** The class hierarchy and method calls on an error value *)
Inductive Class : Type :=
| ObjectClass
| ErrorClass
| RpcErrorClass
| TimeoutErrorClass
| NetworkErrorClass
| UserErrorClass
| ServerErrorClass.

Definition class_of (e : RpcError) : Class :=
  match e with
  | TimeoutError => TimeoutErrorClass
  | NetworkError => NetworkErrorClass
  | UserError _ _ => UserErrorClass
  | ServerError _ _ => ServerErrorClass
  end.

(** [extends]. *)
Definition superclass (c : Class) : option Class :=
  match c with
  | ObjectClass => None
  | ErrorClass => Some ObjectClass
  | RpcErrorClass => Some ErrorClass
  | TimeoutErrorClass | NetworkErrorClass
  | UserErrorClass | ServerErrorClass => Some RpcErrorClass
  end.

(** The methods each class body puts on its prototype.  The five classes of
    the source declare fields and constructors only; [Error] and [Object] are
    the built-in ones. *)
Definition declared_methods (c : Class) : list string :=
  match c with
  | ObjectClass =>
      ["hasOwnProperty"; "isPrototypeOf"; "propertyIsEnumerable";
       "toLocaleString"; "toString"; "valueOf"]
  | ErrorClass => ["toString"]
  | RpcErrorClass => []
  | TimeoutErrorClass => []
  | NetworkErrorClass => []
  | UserErrorClass => []
  | ServerErrorClass => []
  end.

Definition depth (c : Class) : nat :=
  match c with
  | ObjectClass => 0
  | ErrorClass => 1
  | RpcErrorClass => 2
  | _ => 3
  end.

(** The result of [e.name()] for a method name: the call goes through when
    the prototype chain has the method, and is a [TypeError]
    ("... is not a function") otherwise. *)
Inductive MethodCall : Type :=
| Dispatched (owner : Class)
| NotAFunction (error : NativeError).

Fixpoint owner_upto (fuel : nat) (c : Class) (name : string) : option Class :=
  if existsb (String.eqb name) (declared_methods c) then Some c
  else match fuel, superclass c with
       | S f, Some p => owner_upto f p name
       | _, _ => None
       end.

Definition call_method (e : RpcError) (name : string) : MethodCall :=
  match owner_upto (depth (class_of e)) (class_of e) name with
  | Some c => Dispatched c
  | None => NotAFunction (JsTypeError (name ++ " is not a function"))
  end.

(** ** Observable actions and the monad of asynchronous computations *)
Inductive BodyInit (Blob : Type) : Type :=
| BodyString (s : string)
| BodyBlob (b : Blob).
Arguments BodyString {Blob} s.
Arguments BodyBlob {Blob} b.

(** A [Blob]: its parts and its media type. *)
Record Blob : Type := mkBlob {
  blob_parts : list string;
  blob_type : string
}.

(** [RequestInit], without the abort signal, which the timer drives. *)
Record RequestInit : Type := mkRequestInit {
  cache : string;
  credentials : string;
  req_headers : option (list (string * string));
  method : string;
  redirect : string;
  body : option (BodyInit Blob)
}.

Inductive Effect : Type :=
| SetTimeout (ms : Z)
| ClearTimeout
| Abort
| Fetch (url : string) (options : RequestInit)
| ReadJson
| ReadText
| ConsoleError (e : Exn).

(** A promise at the end of the run: fulfilled, rejected, or never
    settled. *)
Inductive Outcome (A : Type) : Type :=
| Returned (a : A)
| Thrown (e : Exn)
| Pending.
Arguments Returned {A} a.
Arguments Thrown {A} e.
Arguments Pending {A}.

(** An asynchronous computation: its outcome and the actions it performed,
    in order. *)
Definition Async (A : Type) : Type := (Outcome A * list Effect)%type.

Definition ret {A} (a : A) : Async A := (Returned a, []).

Definition throw {A} (e : Exn) : Async A := (Thrown e, []).

Definition perform (eff : Effect) : Async unit := (Returned tt, [eff]).

Definition bind {A B} (m : Async A) (k : A -> Async B) : Async B :=
  match m with
  | (Returned a, t) => let '(o, t') := k a in (o, (t ++ t')%list)
  | (Thrown e, t) => (Thrown e, t)
  | (Pending, t) => (Pending, t)
  end.

(** [try { m } catch (e) { h e }]. *)
Definition try_catch {A} (m : Async A) (h : Exn -> Async A) : Async A :=
  match m with
  | (Thrown e, t) => let '(o, t') := h e in (o, (t ++ t')%list)
  | other => other
  end.

(** [try { m } finally { f }]: [f] runs once [m] has settled, and its own
    failure replaces the outcome of [m]. *)
Definition try_finally {A} (m : Async A) (f : Async unit) : Async A :=
  match m with
  | (Pending, t) => (Pending, t)
  | (o, t) =>
      match f with
      | (Returned _, t') => (o, (t ++ t')%list)
      | (Thrown e, t') => (Thrown e, (t ++ t')%list)
      | (Pending, t') => (Pending, (t ++ t')%list)
      end
  end.

Notation "x <- m ;; k" := (bind m (fun x => k))
  (at level 61, m at next level, right associativity).
Notation "m ;;; k" := (bind m (fun _ => k))
  (at level 61, right associativity).

Definition outcome {A} (m : Async A) : Outcome A := fst m.

Definition trace {A} (m : Async A) : list Effect := snd m.

(** Whether a run read the body, as JSON or as text. *)
Definition reads_body (t : list Effect) : bool :=
  existsb (fun eff => match eff with
                      | ReadJson | ReadText => true
                      | _ => false
                      end) t.

Definition reads_text (t : list Effect) : bool :=
  existsb (fun eff => match eff with ReadText => true | _ => false end) t.

(** ** JSON text of a string: [JSON.stringify] on a string value *)
Module Json.

Definition dquote : string := String (JsString.of_code 34) EmptyString.

Definition backslash : string := String (JsString.of_code 92) EmptyString.

(** One code unit inside the quotes. *)
Definition quoteUnit (c : ascii) : string :=
  let n := JsString.code c in
  if n =? 8 then backslash ++ "b"
  else if n =? 9 then backslash ++ "t"
  else if n =? 10 then backslash ++ "n"
  else if n =? 12 then backslash ++ "f"
  else if n =? 13 then backslash ++ "r"
  else if n =? 34 then backslash ++ dquote
  else if n =? 92 then backslash ++ backslash
  else if n <? 32 then
    backslash ++ "u00"
    ++ String (JsString.hexDigit (n / 16))
         (String (JsString.hexDigit (n mod 16)) EmptyString)
  else String c EmptyString.

Fixpoint quoteUnits (s : string) : string :=
  match s with
  | EmptyString => EmptyString
  | String c r => quoteUnit c ++ quoteUnits r
  end.

(** [QuoteJSONString]. *)
Definition quote (s : string) : string := dquote ++ quoteUnits s ++ dquote.

(** A code unit that is written as itself between the quotes. *)
Definition plainUnit (c : ascii) : bool :=
  let n := JsString.code c in
  (32 <=? n) && negb (n =? 34) && negb (n =? 92).

Fixpoint plain (s : string) : bool :=
  match s with
  | EmptyString => true
  | String c r => plainUnit c && plain r
  end.

End Json.

(** ** Headers

    A header list, with [Headers.get]: names are matched without regard to
    ASCII case and the values of a repeated header are joined with a comma
    and a space. *)
Definition HeaderList : Type := list (string * string).

Definition Headers_get (hs : HeaderList) (name : string) : option string :=
  let wanted := JsString.byte_lowercase name in
  let values :=
    map snd
      (filter (fun h => String.eqb (JsString.byte_lowercase (fst h)) wanted) hs)
  in
  match values with
  | [] => None
  | v :: vs => Some (String.concat ", " (v :: vs))
  end.

(** ** Plain objects used as records of strings (the [headers] option)

    Assigning a property that exists replaces its value in place; a new
    property goes to the end. *)
Fixpoint obj_set (k v : string) (o : list (string * string))
  : list (string * string) :=
  match o with
  | [] => [(k, v)]
  | (k', v') :: r =>
      if String.eqb k' k then (k, v) :: r else (k', v') :: obj_set k v r
  end.

(** [{...o, ...src}]. *)
Definition obj_spread (o src : list (string * string)) : list (string * string) :=
  fold_left (fun acc kv => obj_set (fst kv) (snd kv) acc) src o.

(** The [opts] argument of [doRpc]. *)
Record Opts : Type := mkOpts {
  timeout_ms : option Z;
  opt_headers : option (list (string * string))
}.

(** How a promise ends. *)
Inductive Settlement (A : Type) : Type :=
| Fulfilled (a : A)
| RejectedWith (e : Exn).
Arguments Fulfilled {A} a.
Arguments RejectedWith {A} e.

(** ** The program

    JavaScript numbers are kept abstract: the program never computes with a
    number taken from a body, it only prints one through [JSON.stringify].
    [numberToJSON] is that printing. *)
Section Rpc.

Variable JsNumber : Type.
Variable numberToJSON : JsNumber -> string.

(** Values that [JSON.parse] produces. *)
#[warnings="-register-all"] Inductive JsValue : Type :=
| JNull
| JBool (b : bool)
| JNumber (n : JsNumber)
| JString (s : string)
| JArray (elements : list JsValue)
| JObject (properties : list (string * JsValue)).

(** The [typeof] operator. *)
Definition typeof (v : JsValue) : string :=
  match v with
  | JNull => "object"
  | JBool _ => "boolean"
  | JNumber _ => "number"
  | JString _ => "string"
  | JArray _ => "object"
  | JObject _ => "object"
  end.

(** [JSON.stringify(v)]. *)
Fixpoint JSON_stringify (v : JsValue) : string :=
  match v with
  | JNull => "null"
  | JBool true => "true"
  | JBool false => "false"
  | JNumber n => numberToJSON n
  | JString s => Json.quote s
  | JArray elements =>
      "["
      ++ (fix items (l : list JsValue) : string :=
            match l with
            | [] => ""
            | x :: r =>
                JSON_stringify x
                ++ match r with [] => "" | _ :: _ => "," ++ items r end
            end) elements
      ++ "]"
  | JObject properties =>
      "{"
      ++ (fix members (l : list (string * JsValue)) : string :=
            match l with
            | [] => ""
            | (k, x) :: r =>
                Json.quote k ++ ":" ++ JSON_stringify x
                ++ match r with [] => "" | _ :: _ => "," ++ members r end
            end) properties
      ++ "}"
  end.

(** Own property of a parsed object. *)
Fixpoint own_property (name : string) (properties : list (string * JsValue))
  : option JsValue :=
  match properties with
  | [] => None
  | (k, x) :: r => if String.eqb k name then Some x else own_property name r
  end.

(** The expression [v.user_error_message]; [None] is [undefined].  Reading
    a property of [null] throws; an array or a primitive has no property
    of that name. *)
Definition user_error_message (v : JsValue) : Async (option JsValue) :=
  match v with
  | JNull =>
      throw (Native (JsTypeError
        "Cannot read properties of null (reading 'user_error_message')"))
  | JObject properties => ret (own_property "user_error_message" properties)
  | _ => ret None
  end.

(** A [Response] as the transport hands it over.  [json] and [text] are
    what [res.json()] and [res.text()] do when called; [None] is a read
    that never settles. *)
Record Response : Type := mkResponse {
  status : Z;
  statusText : string;
  headers : HeaderList;
  json : option (Settlement JsValue);
  text : option (Settlement string)
}.

Definition await {A} (p : option (Settlement A)) : Async A :=
  match p with
  | Some (Fulfilled a) => ret a
  | Some (RejectedWith e) => throw e
  | None => (Pending, [])
  end.

(** [await res.json()] and [await res.text()]. *)
Definition res_json (res : Response) : Async JsValue :=
  perform ReadJson ;;; await (json res).

Definition res_text (res : Response) : Async string :=
  perform ReadText ;;; await (text res).

(** The [body] argument of [doRpc]: a JSON value or a [Blob]. *)
Inductive BodyArg : Type :=
| JsonBody (v : JsValue)
| BlobBody (b : Blob).

(** [body != undefined]: false for [undefined] and for [null]. *)
Definition not_nullish (b : option BodyArg) : bool :=
  match b with
  | None => false
  | Some (JsonBody JNull) => false
  | Some _ => true
  end.

(** [JSON.stringify(body)].  A [Blob] has no enumerable own property and
    no [toJSON], so it prints as an empty object. *)
Definition JSON_stringify_body (b : BodyArg) : string :=
  match b with
  | JsonBody v => JSON_stringify v
  | BlobBody _ => "{}"
  end.

(** What the event loop delivers while [fetch] is awaited. *)
Inductive Event : Type :=
| TimerFires
| FetchSettles (s : Settlement Response).

(** [await fetch(url, options)] under the armed timer: the value of
    [timedOut] when the promise settles, and the promise.  The timer
    callback sets [timedOut] and aborts; it runs at most once. *)
Fixpoint await_fetch (timedOut : bool) (events : list Event)
  : bool * Async Response :=
  match events with
  | [] => (timedOut, (Pending, []))
  | TimerFires :: rest =>
      if timedOut then await_fetch true rest
      else let '(b, (o, t)) := await_fetch true rest in (b, (o, Abort :: t))
  | FetchSettles (Fulfilled r) :: _ => (timedOut, ret r)
  | FetchSettles (RejectedWith e) :: _ => (timedOut, throw e)
  end.

(** The [options] that [doFetch] passes to [fetch]. *)
Definition doFetch_options (method : string) (body : option BodyArg)
    (opts : option Opts) : RequestInit :=
  {| cache := "no-store";
     credentials := "omit";
     req_headers :=
       if not_nullish body then
         Some (obj_spread [("content-type", "application/json")]
                 (match opts with
                  | Some {| opt_headers := Some h |} => h
                  | _ => []
                  end))
       else match opts with Some o => opt_headers o | None => None end;
     method := method;
     redirect := "error";
     body :=
       if not_nullish body then
         match body with
         | Some b => Some (BodyString (JSON_stringify_body b))
         | None => None
         end
       else None |}.

(** [opts?.timeout_ms ?? 5000]. *)
Definition doFetch_timeout_ms (opts : option Opts) : Z :=
  match opts with
  | Some {| timeout_ms := Some ms |} => ms
  | _ => 5000
  end.

Definition doFetch (method url : string) (body : option BodyArg)
    (opts : option Opts) (events : list Event) : Async Response :=
  let options := doFetch_options method body opts in
  let timeout_ms := doFetch_timeout_ms opts in
  perform (SetTimeout timeout_ms) ;;;
  let '(timedOut, fetched) := await_fetch false events in
  try_finally
    (try_catch (perform (Fetch url options) ;;; fetched)
       (fun e =>
          if timedOut then throw (Rpc TimeoutError)
          else throw (Rpc NetworkError)))
    (perform ClearTimeout).

Definition contentTypeHeader (response : Response) : string :=
  JsString.toLowerCase
    (match Headers_get (headers response) "content-type" with
     | Some v => v
     | None => ""
     end).

Definition hasBody (response : Response) : bool :=
  let contentLength :=
    parseInt (match Headers_get (headers response) "content-length" with
              | Some v => v
              | None => "0"
              end) in
  gt0 contentLength.

Definition readJsonObject (res : Response) : Async JsValue :=
  let contentType := contentTypeHeader res in
  if negb (JsString.startsWith contentType "application/json") then
    throw (Rpc (new_ServerError
      ("server response content-type is not json: "
       ++ JSON_stringify (JString contentType)) None))
  else
    result <- try_catch (res_json res)
                (fun e =>
                   perform (ConsoleError e) ;;;
                   if instanceof_SyntaxError e then
                     throw (Rpc (new_ServerError
                       "server returned malformed json data" None))
                   else throw (Rpc NetworkError)) ;;
    if negb (String.eqb (typeof result) "object") then
      throw (Rpc (new_ServerError
        ("server response is not a JSON object: " ++ JSON_stringify result)
        None))
    else ret result.

Definition tryReadJsonObject (res : Response) : Async (option JsValue) :=
  if negb (hasBody res) then ret None
  else if negb (JsString.startsWith (contentTypeHeader res) "application/json")
  then ret None
  else
    try_catch
      (result <- res_json res ;;
       if negb (String.eqb (typeof result) "object") then ret None
       else ret (Some result))
      (fun e => perform (ConsoleError e) ;;; ret None).

Definition tryReadText (res : Response) : Async (option string) :=
  if negb (hasBody res) then ret None
  else if negb (JsString.startsWith (contentTypeHeader res) "text/plain")
  then ret None
  else
    try_catch (t <- res_text res ;; ret (Some t))
      (fun e => perform (ConsoleError e) ;;; ret None).

Definition doRpc (method url : string) (body : option BodyArg)
    (opts : option Opts) (events : list Event) : Async JsValue :=
  response <- doFetch method url body opts events ;;
  if (200 <=? status response) && (status response <=? 299) then
    if negb (hasBody response) then ret (JObject [])
    else readJsonObject response
  else
    responseJson <- tryReadJsonObject response ;;
    message <- match responseJson with
               | None => ret None
               | Some obj =>
                   m <- user_error_message obj ;;
                   ret (match m with
                        | Some (JString s) => Some s
                        | _ => None
                        end)
               end ;;
    match message with
    | Some s => throw (Rpc (new_UserError s (status response)))
    | None =>
        responseText <- tryReadText response ;;
        match responseText with
        | Some t =>
            throw (Rpc (new_ServerError
              (JsString.ofInteger (status response) ++ " "
               ++ statusText response ++ ", " ++ t)
              (Some (status response))))
        | None =>
            throw (Rpc (new_ServerError
              (JsString.ofInteger (status response) ++ " "
               ++ statusText response)
              (Some (status response))))
        end
    end.

End Rpc.

Arguments JNull {JsNumber}.
Arguments JBool {JsNumber} b.
Arguments JNumber {JsNumber} n.
Arguments JString {JsNumber} s.
Arguments JArray {JsNumber} elements.
Arguments JObject {JsNumber} properties.
Arguments typeof {JsNumber} v.
Arguments own_property {JsNumber} name properties.
Arguments user_error_message {JsNumber} v.
Arguments mkResponse {JsNumber} status statusText headers json text.
Arguments status {JsNumber} r.
Arguments statusText {JsNumber} r.
Arguments headers {JsNumber} r.
Arguments json {JsNumber} r.
Arguments text {JsNumber} r.
Arguments res_json {JsNumber} res.
Arguments res_text {JsNumber} res.
Arguments JsonBody {JsNumber} v.
Arguments BlobBody {JsNumber} b.
Arguments not_nullish {JsNumber} b.
Arguments TimerFires {JsNumber}.
Arguments FetchSettles {JsNumber} s.
Arguments await_fetch {JsNumber} timedOut events.
Arguments JSON_stringify {JsNumber} numberToJSON v.
Arguments doFetch_options {JsNumber} numberToJSON method body opts.
Arguments doFetch {JsNumber} numberToJSON method url body opts events.
Arguments contentTypeHeader {JsNumber} response.
Arguments hasBody {JsNumber} response.
Arguments readJsonObject {JsNumber} numberToJSON res.
Arguments tryReadJsonObject {JsNumber} res.
Arguments tryReadText {JsNumber} res.
Arguments doRpc {JsNumber} numberToJSON method url body opts events.

(** ** Schedules

    The settlement of the fetch in a schedule is the first one delivered;
    the timer fired first when the schedule begins with its firing. *)
Fixpoint first_settlement {JsNumber} (events : list (Event JsNumber))
  : option (Settlement (Response JsNumber)) :=
  match events with
  | [] => None
  | TimerFires :: rest => first_settlement rest
  | FetchSettles s :: _ => Some s
  end.

Definition timer_fired_first {JsNumber} (events : list (Event JsNumber)) : bool :=
  match events with
  | TimerFires :: _ => true
  | _ => false
  end.

(** A trace made of aborts only. *)
Definition only_aborts (t : list Effect) : Prop := Forall (eq Abort) t.

(** ** Concrete runs

    Integer-valued numbers printed in decimal, and the responses of the
    repository's tests together with a few more. *)
Definition integerToJSON (z : Z) : string := JsString.ofInteger z.

Definition completes (r : Response Z) : list (Event Z) :=
  [FetchSettles (Fulfilled r)].

(** [400 Bad Request] with the JSON body [null]. *)
Definition response_400_json_null : Response Z :=
  mkResponse 400 "Bad Request"
    [("content-type", "application/json"); ("content-length", "4")]
    (Some (Fulfilled JNull))
    (Some (Fulfilled "null")).

(** [200 OK] with the JSON body [[]]. *)
Definition response_200_json_array : Response Z :=
  mkResponse 200 "OK"
    [("content-type", "application/json"); ("content-length", "2")]
    (Some (Fulfilled (JArray [])))
    (Some (Fulfilled "[]")).

(** [200 OK] with the JSON body [1] (test 'json but not object'). *)
Definition response_200_json_one : Response Z :=
  mkResponse 200 "OK"
    [("content-type", "application/json"); ("content-length", "1")]
    (Some (Fulfilled (JNumber 1)))
    (Some (Fulfilled "1")).

(** [200 OK] with the JSON body [{}] (test 'POST blob'). *)
Definition response_200_json_empty_object : Response Z :=
  mkResponse 200 "OK"
    [("content-type", "application/json"); ("content-length", "2")]
    (Some (Fulfilled (JObject [])))
    (Some (Fulfilled "{}")).

(** [200 OK], [text/plain], body [a] (test 'response content-type not
    json'). *)
Definition response_200_text : Response Z :=
  mkResponse 200 "OK"
    [("content-type", "text/plain"); ("content-length", "1")]
    (Some (RejectedWith (Native (JsSyntaxError "Unexpected token a"))))
    (Some (Fulfilled "a")).

(** [200 OK] with the malformed JSON body [$] (test 'invalid json'). *)
Definition response_200_invalid_json : Response Z :=
  mkResponse 200 "OK"
    [("content-type", "application/json"); ("content-length", "1")]
    (Some (RejectedWith (Native (JsSyntaxError "Unexpected token $"))))
    (Some (Fulfilled "$")).

(** [200 OK] whose body is cut short (test 'response truncated'). *)
Definition response_200_truncated : Response Z :=
  mkResponse 200 "OK"
    [("content-type", "application/json"); ("content-length", "10")]
    (Some (RejectedWith (Native (JsTypeError "terminated"))))
    (Some (RejectedWith (Native (JsTypeError "terminated")))).

(** [200 OK] with [content-length: 0] (test 'POST 200 with no body'). *)
Definition response_200_no_body : Response Z :=
  mkResponse 200 "OK" [("content-length", "0")]
    (Some (RejectedWith (Native (JsSyntaxError "Unexpected end of JSON input"))))
    (Some (Fulfilled "")).

(** [200 OK] with a [content-length] that is not a number. *)
Definition response_200_bad_length : Response Z :=
  mkResponse 200 "OK"
    [("content-type", "application/json"); ("content-length", "abc")]
    (Some (Fulfilled (JObject [("a", JNumber 1)])))
    (Some (Fulfilled (JSON_stringify integerToJSON
                        (JObject [("a", JNumber 1)])))).

(** [400 Bad Request] with the body of test 'user error message'. *)
Definition response_400_user_error : Response Z :=
  mkResponse 400 "Bad Request"
    [("content-type", "application/json"); ("content-length", "29")]
    (Some (Fulfilled (JObject [("user_error_message", JString "err1")])))
    (Some (Fulfilled (JSON_stringify integerToJSON
                        (JObject [("user_error_message", JString "err1")])))).

(** [400 Bad Request], [text/plain], body [err1] (test 'error with
    text'). *)
Definition response_400_text : Response Z :=
  mkResponse 400 "Bad Request"
    [("content-type", "text/plain"); ("content-length", "4")]
    (Some (RejectedWith (Native (JsSyntaxError "Unexpected token e"))))
    (Some (Fulfilled "err1")).

(** The [Blob] of test 'POST blob'. *)
Definition blob_a1 : Blob := mkBlob ["a"; "1"] "".

(** ** Records and classes, read back *)


Definition Class_eqb (a b : Class) : bool :=
  match a, b with
  | ObjectClass, ObjectClass
  | ErrorClass, ErrorClass
  | RpcErrorClass, RpcErrorClass
  | TimeoutErrorClass, TimeoutErrorClass
  | NetworkErrorClass, NetworkErrorClass
  | UserErrorClass, UserErrorClass
  | ServerErrorClass, ServerErrorClass => true
  | _, _ => false
  end.

Fixpoint extends_upto (fuel : nat) (c target : Class) : bool :=
  if Class_eqb c target then true
  else match fuel, superclass c with
       | S f, Some p => extends_upto f p target
       | _, _ => false
       end.

(** [e instanceof C]: [C] is on the prototype chain of [e]. *)
Definition instanceof (e : RpcError) (c : Class) : bool :=
  extends_upto (depth (class_of e)) (class_of e) c.

(** The big-endian value of a decimal numeral, read on top of [acc]. *)
Fixpoint decimal_value (acc : Z) (d : Decimal.uint) : Z :=
  match d with
  | Decimal.Nil => acc
  | Decimal.D0 l => decimal_value (acc * 10 + 0) l
  | Decimal.D1 l => decimal_value (acc * 10 + 1) l
  | Decimal.D2 l => decimal_value (acc * 10 + 2) l
  | Decimal.D3 l => decimal_value (acc * 10 + 3) l
  | Decimal.D4 l => decimal_value (acc * 10 + 4) l
  | Decimal.D5 l => decimal_value (acc * 10 + 5) l
  | Decimal.D6 l => decimal_value (acc * 10 + 6) l
  | Decimal.D7 l => decimal_value (acc * 10 + 7) l
  | Decimal.D8 l => decimal_value (acc * 10 + 8) l
  | Decimal.D9 l => decimal_value (acc * 10 + 9) l
  end.

(** [200 OK] with a JSON object as body (test 'GET'). *)
Definition response_200_json_object : Response Z :=
  mkResponse 200 "OK"
    [("content-type", "application/json"); ("content-length", "7")]
    (Some (Fulfilled (JObject [("a", JNumber 1)])))
    (Some (Fulfilled (JSON_stringify integerToJSON
                        (JObject [("a", JNumber 1)])))).

(** [400 Bad Request], [text/plain], body cut short (test 'error with
    truncated text'). *)
Definition response_400_truncated_text : Response Z :=
  mkResponse 400 "Bad Request"
    [("content-type", "text/plain"); ("content-length", "4")]
    (Some (RejectedWith (Native (JsTypeError "terminated"))))
    (Some (RejectedWith (Native (JsTypeError "terminated")))).

(** [400 Bad Request] whose [user_error_message] is a number. *)
Definition response_400_numeric_message : Response Z :=
  mkResponse 400 "Bad Request"
    [("content-type", "application/json"); ("content-length", "24")]
    (Some (Fulfilled (JObject [("user_error_message", JNumber 7)])))
    (Some (Fulfilled (JSON_stringify integerToJSON
                        (JObject [("user_error_message", JNumber 7)])))).

(** [200 OK] with a JSON content-type whose body never arrives. *)
Definition response_200_stalled : Response Z :=
  mkResponse 200 "OK"
    [("content-type", "application/json"); ("content-length", "7")]
    None None.

(** * Properties *)

(** ** The platform model on the values the tests use *)

Example parseInt_10 : parseInt "10" = Int 10.
Proof. reflexivity. Qed.

Example parseInt_junk : parseInt "abc" = NaN.
Proof. reflexivity. Qed.

Example parseInt_mixed : parseInt "  -42px" = Int (-42).
Proof. reflexivity. Qed.

Example parseInt_hex : parseInt "0x1f" = Int 31.
Proof. reflexivity. Qed.

Example ofInteger_400 : JsString.ofInteger 400 = "400".
Proof. reflexivity. Qed.

Example toLowerCase_ct :
  JsString.toLowerCase "Application/JSON; Charset=UTF-8"
  = "application/json; charset=utf-8".
Proof. reflexivity. Qed.

Example call_toString :
  call_method (new_ServerError "err1" (Some 400)) "toString"
  = Dispatched ErrorClass.
Proof. reflexivity. Qed.

Example quote_text_plain :
  Json.quote "text/plain" = Json.dquote ++ "text/plain" ++ Json.dquote.
Proof. reflexivity. Qed.

(** ** The monad *)
Lemma outcome_bind_returned {A B} (a : A) (t : list Effect) (k : A -> Async B) :
  outcome (bind (Returned a, t) k) = outcome (k a).
Proof. unfold bind, outcome. destruct (k a); reflexivity. Qed.

Lemma trace_bind_returned {A B} (a : A) (t : list Effect) (k : A -> Async B) :
  trace (bind (Returned a, t) k) = (t ++ trace (k a))%list.
Proof. unfold bind, trace. destruct (k a); reflexivity. Qed.

Lemma reads_body_app (t u : list Effect) :
  reads_body (t ++ u) = reads_body t || reads_body u.
Proof. unfold reads_body. apply existsb_app. Qed.

Lemma reads_text_app (t u : list Effect) :
  reads_text (t ++ u) = reads_text t || reads_text u.
Proof. unfold reads_text. apply existsb_app. Qed.

Lemma reads_text_le_reads_body (t : list Effect) :
  reads_body t = false -> reads_text t = false.
Proof.
  induction t as [|eff t IH]; simpl; [reflexivity|].
  destruct eff; simpl; auto; discriminate.
Qed.

(** ** JSON text of a string *)
Lemma quoteUnit_plain (c : ascii) :
  Json.plainUnit c = true -> Json.quoteUnit c = String c EmptyString.
Proof.
  unfold Json.plainUnit, Json.quoteUnit. intros H.
  apply andb_prop in H as [H H92]. apply andb_prop in H as [H32 H34].
  apply Z.leb_le in H32. apply negb_true_iff in H34, H92.
  rewrite H34, H92.
  repeat match goal with
         | |- context [?a =? ?b] =>
             destruct (Z.eqb_spec a b); [lia|]
         end.
  destruct (Z.ltb_spec (JsString.code c) 32); [lia|reflexivity].
Qed.

(** A string without quotes, backslashes or control characters is printed
    as itself between two quotes. *)
Lemma quote_plain (s : string) :
  Json.plain s = true -> Json.quote s = Json.dquote ++ s ++ Json.dquote.
Proof.
  unfold Json.quote. intros H. f_equal. f_equal.
  induction s as [|c r IH]; simpl in *; [reflexivity|].
  apply andb_prop in H as [Hc Hr].
  rewrite (quoteUnit_plain c Hc), (IH Hr). reflexivity.
Qed.

(** ** The transport dispatcher *)
Section Dispatcher.

Variable JsNumber : Type.
Variable numberToJSON : JsNumber -> string.

Implicit Types (events : list (Event JsNumber)) (r : Response JsNumber).
Implicit Types (body : option (BodyArg JsNumber)) (opts : option Opts).

Lemma only_aborts_reads_body (t : list Effect) :
  only_aborts t -> reads_body t = false.
Proof.
  induction 1 as [|eff t Heff _ IH]; [reflexivity|].
  subst eff. exact IH.
Qed.

Lemma await_fetch_fulfilled events r :
  first_settlement events = Some (Fulfilled r) ->
  forall timedOut, exists b t,
    await_fetch timedOut events = (b, (Returned r, t)) /\ only_aborts t.
Proof.
  induction events as [|ev rest IH]; simpl; [discriminate|].
  destruct ev as [|s].
  - intros H timedOut. destruct (IH H true) as (b & t & E & Ht).
    destruct timedOut; rewrite E.
    + exists b, t. split; [reflexivity|exact Ht].
    + exists b, (Abort :: t). split; [reflexivity|].
      constructor; [reflexivity|exact Ht].
  - intros H timedOut. injection H as ->.
    exists timedOut, []. split; [reflexivity|constructor].
Qed.

Lemma await_fetch_rejected events e :
  first_settlement events = Some (RejectedWith e) ->
  forall timedOut, exists t,
    await_fetch timedOut events
    = (timedOut || timer_fired_first events, (Thrown e, t)).
Proof.
  induction events as [|ev rest IH]; simpl; [discriminate|].
  destruct ev as [|s].
  - intros H timedOut. destruct (IH H true) as (t & E).
    simpl in E. rewrite orb_true_r.
    destruct timedOut; rewrite E; eauto.
  - intros H timedOut. injection H as ->. rewrite orb_false_r.
    exists []. reflexivity.
Qed.

(** Whatever the schedule, the timer is armed with the configured delay and
    the request goes out with the options built from the arguments. *)
Lemma doFetch_trace_head method url body opts events :
  exists t,
    trace (doFetch numberToJSON method url body opts events)
    = SetTimeout (doFetch_timeout_ms opts)
      :: Fetch url (doFetch_options numberToJSON method body opts) :: t.
Proof.
  unfold doFetch.
  destruct (await_fetch false events) as [timedOut [o t]].
  destruct o, timedOut; simpl; eexists; reflexivity.
Qed.

(** A fetch that is fulfilled hands its response over, and the dispatcher
    does not touch the body. *)
Lemma doFetch_fulfilled method url body opts events r :
  first_settlement events = Some (Fulfilled r) ->
  exists t,
    doFetch numberToJSON method url body opts events = (Returned r, t)
    /\ reads_body t = false.
Proof.
  intros H. unfold doFetch.
  destruct (await_fetch_fulfilled events r H false) as (b & t & E & Ht).
  rewrite E. simpl. eexists. split; [reflexivity|].
  simpl. rewrite reads_body_app, (only_aborts_reads_body t Ht). reflexivity.
Qed.

(** A fetch that is rejected is reported by the state of [timedOut] alone. *)
Lemma doFetch_rejected method url body opts events e :
  first_settlement events = Some (RejectedWith e) ->
  outcome (doFetch numberToJSON method url body opts events)
  = Thrown (Rpc (if timer_fired_first events then TimeoutError
                 else NetworkError)).
Proof.
  intros H. unfold doFetch.
  destruct (await_fetch_rejected events e H false) as (t & E).
  rewrite E. simpl. destruct (timer_fired_first events); reflexivity.
Qed.

(** [doRpc] starts with [doFetch]. *)
Lemma doRpc_trace_head method url body opts events :
  exists t,
    trace (doRpc numberToJSON method url body opts events)
    = SetTimeout (doFetch_timeout_ms opts)
      :: Fetch url (doFetch_options numberToJSON method body opts) :: t.
Proof.
  destruct (doFetch_trace_head method url body opts events) as (t & E).
  unfold doRpc.
  destruct (doFetch numberToJSON method url body opts events) as [o t0].
  simpl in E. subst t0.
  destruct o as [r| |]; simpl; try (eexists; reflexivity).
  match goal with |- context [let '(_, _) := ?m in _] => destruct m end.
  simpl. eexists. reflexivity.
Qed.

End Dispatcher.

(** ** The response classifier *)
Section Classifier.

Variable JsNumber : Type.
Variable numberToJSON : JsNumber -> string.

Implicit Types (events : list (Event JsNumber)) (r : Response JsNumber).
Implicit Types (body : option (BodyArg JsNumber)) (opts : option Opts).

Lemma status_2xx r :
  200 <= status r <= 299 ->
  (200 <=? status r) && (status r <=? 299) = true.
Proof. intros [H1 H2]. apply andb_true_intro. split; apply Z.leb_le; lia. Qed.

Lemma status_not_2xx r :
  ~ 200 <= status r <= 299 ->
  (200 <=? status r) && (status r <=? 299) = false.
Proof.
  intros H. apply not_true_is_false. intros E.
  apply andb_prop in E as [H1 H2]. apply Z.leb_le in H1, H2. lia.
Qed.

Lemma hasBody_missing r :
  Headers_get (headers r) "content-length" = None -> hasBody r = false.
Proof. unfold hasBody. intros ->. reflexivity. Qed.

Lemma hasBody_not_positive r v :
  Headers_get (headers r) "content-length" = Some v ->
  (forall n, parseInt v = Int n -> n <= 0) ->
  hasBody r = false.
Proof.
  unfold hasBody. intros -> H. destruct (parseInt v) as [|n]; [reflexivity|].
  simpl. apply Z.ltb_ge. apply H. reflexivity.
Qed.

(** Reduce a goal about [doRpc] on a fulfilled fetch to the classification
    of the response. *)
Ltac after_fetch H :=
  match goal with
  | |- context [doRpc ?nj ?m ?u ?b ?o ?ev] =>
      let t0 := fresh "t0" in
      let Efetch := fresh "Efetch" in
      let Ht0 := fresh "Ht0" in
      destruct (doFetch_fulfilled _ nj m u b o ev _ H) as (t0 & Efetch & Ht0);
      unfold doRpc; rewrite Efetch;
      rewrite ?outcome_bind_returned, ?trace_bind_returned, ?reads_body_app,
        ?reads_text_app, ?Ht0, ?(reads_text_le_reads_body _ Ht0)
  end.

(** A response without a body: success is the empty object and failure is
    the bare status line, and in both cases the body is left alone. *)
Lemma doRpc_without_body method url body opts events r :
  first_settlement events = Some (Fulfilled r) ->
  hasBody r = false ->
  outcome (doRpc numberToJSON method url body opts events)
  = (if (200 <=? status r) && (status r <=? 299)
     then Returned (JObject [])
     else Thrown (Rpc (new_ServerError
            (JsString.ofInteger (status r) ++ " " ++ statusText r)
            (Some (status r)))))
  /\ reads_body (trace (doRpc numberToJSON method url body opts events))
     = false.
Proof.
  intros Hf Hb. after_fetch Hf.
  unfold tryReadJsonObject, tryReadText. rewrite Hb.
  destruct ((200 <=? status r) && (status r <=? 299)); simpl; auto.
Qed.

(** C6. A 2xx response whose content-length header is missing, or parses to
    a value that is at most 0, makes [doRpc] return the empty object, and
    the body is neither read nor decoded. *)
Theorem doRpc_2xx_no_content_returns_empty_object
    method url body opts events r :
  first_settlement events = Some (Fulfilled r) ->
  200 <= status r <= 299 ->
  (Headers_get (headers r) "content-length" = None
   \/ exists v n, Headers_get (headers r) "content-length" = Some v
                  /\ parseInt v = Int n /\ n <= 0) ->
  outcome (doRpc numberToJSON method url body opts events)
  = Returned (JObject [])
  /\ reads_body (trace (doRpc numberToJSON method url body opts events))
     = false.
Proof.
  intros Hf Hs Hlen.
  assert (Hb : hasBody r = false).
  { destruct Hlen as [Hnone | (v & n & Hv & Hp & Hn)].
    - apply hasBody_missing, Hnone.
    - apply (hasBody_not_positive r v Hv). intros m Hm.
      rewrite Hp in Hm. injection Hm as <-. exact Hn. }
  destruct (doRpc_without_body method url body opts events r Hf Hb) as [Ho Ht].
  rewrite (status_2xx r Hs) in Ho. split; assumption.
Qed.

(** C10. A content-length header that is present but does not parse to a
    positive integer (it parses to NaN, or to a value that is at most 0)
    means no body: on a 2xx status [doRpc] returns the empty object, on any
    other status it throws the ServerError made of the status line alone,
    and neither the JSON read nor the text read takes place. *)
Theorem doRpc_unparsable_content_length_means_no_body
    method url body opts events r v :
  first_settlement events = Some (Fulfilled r) ->
  Headers_get (headers r) "content-length" = Some v ->
  (forall n, parseInt v = Int n -> n <= 0) ->
  (200 <= status r <= 299 ->
   outcome (doRpc numberToJSON method url body opts events)
   = Returned (JObject []))
  /\ (~ 200 <= status r <= 299 ->
      outcome (doRpc numberToJSON method url body opts events)
      = Thrown (Rpc (new_ServerError
          (JsString.ofInteger (status r) ++ " " ++ statusText r)
          (Some (status r)))))
  /\ reads_body (trace (doRpc numberToJSON method url body opts events))
     = false.
Proof.
  intros Hf Hv Hp.
  pose proof (hasBody_not_positive r v Hv Hp) as Hb.
  destruct (doRpc_without_body method url body opts events r Hf Hb) as [Ho Ht].
  repeat split.
  - intros Hs. rewrite (status_2xx r Hs) in Ho. exact Ho.
  - intros Hs. rewrite (status_not_2xx r Hs) in Ho. exact Ho.
  - exact Ht.
Qed.

(** C7. A 2xx response that declares a body and whose content-type, in
    lower case, does not start with application/json makes [doRpc] throw a
    ServerError (not a NetworkError) whose message is
    [Error talking to server: server response content-type is not json: ]
    followed by the lower-cased content-type as a JSON string; for a
    content-type without quotes, backslashes or control characters that is
    the content-type itself between two double quotes. *)
Theorem doRpc_2xx_content_type_not_json method url body opts events r :
  first_settlement events = Some (Fulfilled r) ->
  200 <= status r <= 299 ->
  hasBody r = true ->
  JsString.startsWith (contentTypeHeader r) "application/json" = false ->
  exists e,
    outcome (doRpc numberToJSON method url body opts events) = Thrown (Rpc e)
    /\ class_of e = ServerErrorClass
    /\ e <> NetworkError
    /\ message_of e
       = "Error talking to server: server response content-type is not json: "
         ++ Json.quote (contentTypeHeader r)
    /\ (Json.plain (contentTypeHeader r) = true ->
        message_of e
        = "Error talking to server: server response content-type is not json: "
          ++ Json.dquote ++ contentTypeHeader r ++ Json.dquote).
Proof.
  intros Hf Hs Hb Hct. after_fetch Hf.
  rewrite (status_2xx r Hs), Hb. unfold readJsonObject. rewrite Hct. simpl.
  eexists. split; [reflexivity|]. repeat split.
  - discriminate.
  - intros Hp. simpl. rewrite (quote_plain _ Hp). reflexivity.
Qed.

(** C8. On a 2xx response with a declared body and a JSON content-type, a
    body read that fails with a SyntaxError makes [doRpc] throw the
    ServerError with the fixed message [server returned malformed json
    data], and a body read that fails with anything else makes it throw
    NetworkError. *)
Theorem doRpc_2xx_json_read_failure method url body opts events r :
  first_settlement events = Some (Fulfilled r) ->
  200 <= status r <= 299 ->
  hasBody r = true ->
  JsString.startsWith (contentTypeHeader r) "application/json" = true ->
  (forall m,
     json r = Some (RejectedWith (Native (JsSyntaxError m))) ->
     outcome (doRpc numberToJSON method url body opts events)
     = Thrown (Rpc (new_ServerError "server returned malformed json data"
                      None)))
  /\ (forall e,
        json r = Some (RejectedWith e) ->
        instanceof_SyntaxError e = false ->
        outcome (doRpc numberToJSON method url body opts events)
        = Thrown (Rpc NetworkError)).
Proof.
  intros Hf Hs Hb Hct. split.
  - intros m Hj. after_fetch Hf.
    rewrite (status_2xx r Hs), Hb. unfold readJsonObject, res_json.
    rewrite Hct, Hj. reflexivity.
  - intros e Hj He. after_fetch Hf.
    rewrite (status_2xx r Hs), Hb. unfold readJsonObject, res_json.
    rewrite Hct, Hj. simpl. rewrite He. reflexivity.
Qed.

(** C4, as the code has it. On a 2xx response with a declared body and a
    JSON content-type whose body decodes to a value whose [typeof] is not
    "object" (a bare number, a string or a boolean), [doRpc] throws the
    ServerError with message [server response is not a JSON object: ]
    followed by the JSON text of the value; a decoded array is returned to
    the caller as the result. *)
Theorem doRpc_2xx_json_not_object method url body opts events r v :
  first_settlement events = Some (Fulfilled r) ->
  200 <= status r <= 299 ->
  hasBody r = true ->
  JsString.startsWith (contentTypeHeader r) "application/json" = true ->
  json r = Some (Fulfilled v) ->
  (typeof v <> "object" ->
   outcome (doRpc numberToJSON method url body opts events)
   = Thrown (Rpc (new_ServerError
       ("server response is not a JSON object: "
        ++ JSON_stringify numberToJSON v) None)))
  /\ (forall elements,
        v = JArray elements ->
        outcome (doRpc numberToJSON method url body opts events)
        = Returned v).
Proof.
  intros Hf Hs Hb Hct Hj. split.
  - intros Hty. after_fetch Hf.
    rewrite (status_2xx r Hs), Hb. unfold readJsonObject, res_json.
    rewrite Hct, Hj. simpl.
    apply String.eqb_neq in Hty. rewrite Hty. reflexivity.
  - intros elements ->. after_fetch Hf.
    rewrite (status_2xx r Hs), Hb. unfold readJsonObject, res_json.
    rewrite Hct, Hj. reflexivity.
Qed.

(** The best-effort JSON read never reads the body as text. *)
Lemma tryReadJsonObject_reads_no_text r :
  reads_text (trace (tryReadJsonObject r)) = false.
Proof.
  unfold tryReadJsonObject, res_json.
  destruct (hasBody r); [|reflexivity].
  destruct (JsString.startsWith (contentTypeHeader r) "application/json");
    [|reflexivity].
  destruct (json r) as [[v|e]|]; simpl; try reflexivity.
  destruct (negb (String.eqb (typeof v) "object")); reflexivity.
Qed.

(** C5. On a response whose status is outside [200,299] and whose body
    best-effort-decodes to a JSON object with a string-typed field
    [user_error_message], [doRpc] throws UserError with exactly that string
    and the status of the response; the text read is not attempted, so
    neither it nor the ServerError fallback can take over. *)
Theorem doRpc_user_error_message_first
    method url body opts events r properties s :
  first_settlement events = Some (Fulfilled r) ->
  ~ 200 <= status r <= 299 ->
  outcome (tryReadJsonObject r) = Returned (Some (JObject properties)) ->
  own_property "user_error_message" properties = Some (JString s) ->
  outcome (doRpc numberToJSON method url body opts events)
  = Thrown (Rpc (UserError s (status r)))
  /\ reads_text (trace (doRpc numberToJSON method url body opts events))
     = false.
Proof.
  intros Hf Hs Hj Hp. after_fetch Hf. rewrite (status_not_2xx r Hs).
  pose proof (tryReadJsonObject_reads_no_text r) as Ht.
  destruct (tryReadJsonObject r) as [o t]. simpl in Hj, Ht. subst o.
  simpl. rewrite Hp. simpl. rewrite !reads_text_app, Ht. auto.
Qed.

(** C9. When the fetch is rejected, [doRpc] throws TimeoutError if the timer
    fired before the rejection and NetworkError otherwise, whatever value
    the transport rejected with (an abort, a refused redirect, a lost
    connection); the timer had been armed with [timeout_ms], or with 5000
    when the caller gave none. *)
Theorem doRpc_transport_failure method url body opts events e :
  first_settlement events = Some (RejectedWith e) ->
  outcome (doRpc numberToJSON method url body opts events)
  = Thrown (Rpc (if timer_fired_first events then TimeoutError
                 else NetworkError))
  /\ hd_error (trace (doRpc numberToJSON method url body opts events))
     = Some (SetTimeout (match opts with
                         | Some {| timeout_ms := Some ms |} => ms
                         | _ => 5000
                         end)).
Proof.
  intros Hf. split.
  - pose proof (doFetch_rejected _ numberToJSON method url body opts events e Hf)
      as Ho.
    unfold doRpc.
    destruct (doFetch numberToJSON method url body opts events) as [o t].
    simpl in Ho. subst o. reflexivity.
  - destruct (doRpc_trace_head _ numberToJSON method url body opts events)
      as (t & ->).
    reflexivity.
Qed.

(** On the failure path every decoded value but [null] leads to a UserError
    or a ServerError that carries the status, provided the reads settle. *)
Lemma doRpc_failure_path_classified method url body opts events r :
  first_settlement events = Some (Fulfilled r) ->
  ~ 200 <= status r <= 299 ->
  json r <> Some (Fulfilled JNull) ->
  json r <> None ->
  text r <> None ->
  exists e,
    outcome (doRpc numberToJSON method url body opts events) = Thrown (Rpc e)
    /\ (class_of e = UserErrorClass \/ class_of e = ServerErrorClass)
    /\ status_of e = Some (status r).
Proof.
  intros Hf Hs Hnull Hj Ht. after_fetch Hf. rewrite (status_not_2xx r Hs).
  unfold tryReadJsonObject, tryReadText, res_json, res_text.
  destruct (hasBody r); simpl.
  2:{ eexists. split; [reflexivity|]. split; [right|]; reflexivity. }
  destruct (JsString.startsWith (contentTypeHeader r) "application/json").
  - destruct (json r) as [[v|x]|]; [| |congruence]; simpl.
    + destruct v as [|b|n|s|l|props]; simpl; try congruence;
        try (destruct (JsString.startsWith (contentTypeHeader r) "text/plain");
             simpl;
             [destruct (text r) as [[tx|x]|]; [| |congruence]; simpl|];
             eexists; (split; [reflexivity|]); (split; [right|]); reflexivity).
      destruct (own_property "user_error_message" props) as [[|b|n|s|l|q]|];
        simpl;
        try (eexists; (split; [reflexivity|]); (split; [left|]); reflexivity);
        destruct (JsString.startsWith (contentTypeHeader r) "text/plain");
        simpl;
        try (destruct (text r) as [[tx|x]|]; [| |congruence]; simpl);
        eexists; (split; [reflexivity|]); (split; [right|]); reflexivity.
    + destruct (JsString.startsWith (contentTypeHeader r) "text/plain");
        simpl;
        try (destruct (text r) as [[tx|x0]|]; [| |congruence]; simpl);
        eexists; (split; [reflexivity|]); (split; [right|]); reflexivity.
  - simpl.
    destruct (JsString.startsWith (contentTypeHeader r) "text/plain");
      simpl;
      try (destruct (text r) as [[tx|x0]|]; [| |congruence]; simpl);
      eexists; (split; [reflexivity|]); (split; [right|]); reflexivity.
Qed.

End Classifier.

(** ** Where the code departs from the specification *)

(** C1. A 400 response with content-type application/json, content-length 4
    and the body [null]: the best-effort read hands [null] to [doRpc], the
    property read on it throws, and a TypeError, which is none of the four
    kinds, leaves [doRpc]. *)
Theorem doRpc_400_json_null_throws_TypeError :
  outcome (doRpc integerToJSON "GET" "http://127.0.0.1/" None None
             (completes response_400_json_null))
  = Thrown (Native (JsTypeError
      "Cannot read properties of null (reading 'user_error_message')"))
  /\ forall e : RpcError,
       outcome (doRpc integerToJSON "GET" "http://127.0.0.1/" None None
                  (completes response_400_json_null))
       <> Thrown (Rpc e).
Proof. split; [reflexivity|]. intros e. discriminate. Qed.

(** C2. No class on the prototype chain of a ServerError declares [is400]
    or [is500]: calling either one on a ServerError is a TypeError, whatever
    its status. *)
Theorem ServerError_is400_is500_not_functions :
  forall (message : string) (status : option Z),
    call_method (new_ServerError message status) "is400"
    = NotAFunction (JsTypeError "is400 is not a function")
    /\ call_method (new_ServerError message status) "is500"
       = NotAFunction (JsTypeError "is500 is not a function").
Proof. intros message status. split; reflexivity. Qed.

(** C3. A [Blob] passed as the body is serialized with [JSON.stringify]
    like any other object: the request goes out with the text [{}] as its
    body and with the header [content-type: application/json]. *)
Theorem doRpc_blob_body_is_json_serialized :
  forall (JsNumber : Type) (numberToJSON : JsNumber -> string)
         (method url : string) (events : list (Event JsNumber)) (b : Blob),
  exists t,
    trace (doRpc numberToJSON method url (Some (BlobBody b)) None events)
    = SetTimeout 5000
      :: Fetch url
           {| cache := "no-store";
              credentials := "omit";
              req_headers := Some [("content-type", "application/json")];
              method := method;
              redirect := "error";
              body := Some (BodyString "{}") |}
      :: t.
Proof.
  intros JsNumber numberToJSON method url events b.
  destruct (doRpc_trace_head JsNumber numberToJSON method url
              (Some (BlobBody b)) None events) as (t & E).
  exists t. exact E.
Qed.

(** C4, as the specification states it, fails on an array: a 200 response
    with a declared body and a JSON content-type whose body decodes to the
    empty array is returned to the caller, and no ServerError is thrown. *)
Lemma doRpc_2xx_json_array_is_returned :
  status response_200_json_array = 200
  /\ hasBody response_200_json_array = true
  /\ JsString.startsWith (contentTypeHeader response_200_json_array)
       "application/json" = true
  /\ json response_200_json_array = Some (Fulfilled (JArray []))
  /\ outcome (doRpc integerToJSON "GET" "http://127.0.0.1/" None None
                (completes response_200_json_array))
     = Returned (JArray [])
  /\ outcome (doRpc integerToJSON "GET" "http://127.0.0.1/" None None
                (completes response_200_json_array))
     <> Thrown (Rpc (new_ServerError
          ("server response is not a JSON object: "
           ++ JSON_stringify integerToJSON (JArray [])) None)).
Proof. repeat split; try reflexivity. discriminate. Qed.

(** ** The theorems on concrete responses *)

Lemma doRpc_2xx_json_not_object_witness :
  outcome (doRpc integerToJSON "GET" "http://127.0.0.1/" None None
             (completes response_200_json_one))
  = Thrown (Rpc (new_ServerError "server response is not a JSON object: 1"
                   None)).
Proof.
  apply (doRpc_2xx_json_not_object Z integerToJSON "GET" "http://127.0.0.1/"
           None None (completes response_200_json_one) response_200_json_one
           (JNumber 1)).
  - reflexivity.
  - simpl. lia.
  - reflexivity.
  - reflexivity.
  - reflexivity.
  - discriminate.
Defined.

Lemma doRpc_user_error_message_first_witness :
  outcome (doRpc integerToJSON "GET" "http://127.0.0.1/" None None
             (completes response_400_user_error))
  = Thrown (Rpc (UserError "err1" 400))
  /\ reads_text (trace (doRpc integerToJSON "GET" "http://127.0.0.1/" None None
                          (completes response_400_user_error)))
     = false.
Proof.
  apply (doRpc_user_error_message_first Z integerToJSON "GET"
           "http://127.0.0.1/" None None (completes response_400_user_error)
           response_400_user_error
           [("user_error_message", JString "err1")] "err1").
  - reflexivity.
  - simpl. lia.
  - reflexivity.
  - reflexivity.
Defined.

Lemma doRpc_2xx_no_content_returns_empty_object_witness :
  outcome (doRpc integerToJSON "POST" "http://127.0.0.1/"
             (Some (JsonBody (JObject [("a", JNumber 1)]))) None
             (completes response_200_no_body))
  = Returned (JObject [])
  /\ reads_body (trace (doRpc integerToJSON "POST" "http://127.0.0.1/"
                          (Some (JsonBody (JObject [("a", JNumber 1)]))) None
                          (completes response_200_no_body)))
     = false.
Proof.
  apply (doRpc_2xx_no_content_returns_empty_object Z integerToJSON "POST"
           "http://127.0.0.1/" (Some (JsonBody (JObject [("a", JNumber 1)])))
           None (completes response_200_no_body) response_200_no_body).
  - reflexivity.
  - simpl. lia.
  - right. exists "0", 0. split; [reflexivity | split; [reflexivity | lia]].
Defined.

Lemma doRpc_2xx_content_type_not_json_witness :
  exists e,
    outcome (doRpc integerToJSON "GET" "http://127.0.0.1/" None None
               (completes response_200_text))
    = Thrown (Rpc e)
    /\ class_of e = ServerErrorClass
    /\ message_of e
       = "Error talking to server: server response content-type is not json: "
         ++ Json.dquote ++ "text/plain" ++ Json.dquote.
Proof.
  destruct (doRpc_2xx_content_type_not_json Z integerToJSON "GET"
              "http://127.0.0.1/" None None (completes response_200_text)
              response_200_text)
    as (e & Ho & Hc & _ & _ & Hm).
  - reflexivity.
  - simpl. lia.
  - reflexivity.
  - reflexivity.
  - exists e. repeat split; [exact Ho | exact Hc | apply Hm; reflexivity].
Defined.

Lemma doRpc_2xx_json_read_failure_witness :
  outcome (doRpc integerToJSON "GET" "http://127.0.0.1/" None None
             (completes response_200_invalid_json))
  = Thrown (Rpc (new_ServerError "server returned malformed json data" None))
  /\ outcome (doRpc integerToJSON "GET" "http://127.0.0.1/" None None
                (completes response_200_truncated))
     = Thrown (Rpc NetworkError).
Proof.
  split.
  - apply (doRpc_2xx_json_read_failure Z integerToJSON "GET"
             "http://127.0.0.1/" None None
             (completes response_200_invalid_json) response_200_invalid_json)
      with (m := "Unexpected token $").
    + reflexivity.
    + simpl. lia.
    + reflexivity.
    + reflexivity.
    + reflexivity.
  - apply (doRpc_2xx_json_read_failure Z integerToJSON "GET"
             "http://127.0.0.1/" None None
             (completes response_200_truncated) response_200_truncated)
      with (e := Native (JsTypeError "terminated")).
    + reflexivity.
    + simpl. lia.
    + reflexivity.
    + reflexivity.
    + reflexivity.
    + reflexivity.
Defined.

Lemma doRpc_transport_failure_witness :
  outcome (doRpc integerToJSON "GET" "http://127.0.0.1/" None
             (Some {| timeout_ms := Some 100; opt_headers := None |})
             [TimerFires; FetchSettles (RejectedWith (Native JsAbortError))])
  = Thrown (Rpc TimeoutError)
  /\ hd_error
       (trace (doRpc integerToJSON "GET" "http://127.0.0.1/" None
                 (Some {| timeout_ms := Some 100; opt_headers := None |})
                 [TimerFires;
                  FetchSettles (RejectedWith (Native JsAbortError))]))
     = Some (SetTimeout 100).
Proof.
  apply (doRpc_transport_failure Z integerToJSON "GET" "http://127.0.0.1/"
           None (Some {| timeout_ms := Some 100; opt_headers := None |})
           [TimerFires; FetchSettles (RejectedWith (Native JsAbortError))]
           (Native JsAbortError)).
  reflexivity.
Defined.

Lemma doRpc_unparsable_content_length_means_no_body_witness :
  outcome (doRpc integerToJSON "GET" "http://127.0.0.1/" None None
             (completes response_200_bad_length))
  = Returned (JObject [])
  /\ reads_body (trace (doRpc integerToJSON "GET" "http://127.0.0.1/" None None
                          (completes response_200_bad_length)))
     = false.
Proof.
  destruct (doRpc_unparsable_content_length_means_no_body Z integerToJSON
              "GET" "http://127.0.0.1/" None None
              (completes response_200_bad_length) response_200_bad_length
              "abc")
    as (H2xx & _ & Hreads).
  - reflexivity.
  - reflexivity.
  - intros n Hn. discriminate Hn.
  - split; [apply H2xx; simpl; lia | exact Hreads].
Defined.

(** ** The repository's tests, replayed on the model *)

Example test_error_with_text :
  outcome (doRpc integerToJSON "GET" "http://127.0.0.1/" None None
             (completes response_400_text))
  = Thrown (Rpc (new_ServerError "400 Bad Request, err1" (Some 400))).
Proof. reflexivity. Qed.

Example test_error_with_text_message :
  message_of (new_ServerError "400 Bad Request, err1" (Some 400))
  = "Error talking to server: 400 Bad Request, err1".
Proof. reflexivity. Qed.

Example test_disconnect :
  outcome (doRpc integerToJSON "GET" "http://127.0.0.1/" None None
             [FetchSettles (RejectedWith (Native (JsTypeError "fetch failed")))])
  = Thrown (Rpc NetworkError).
Proof. reflexivity. Qed.

Example test_POST_blob_result :
  outcome (doRpc integerToJSON "POST" "http://127.0.0.1/"
             (Some (BlobBody blob_a1)) None
             (completes response_200_json_empty_object))
  = Returned (JObject []).
Proof. reflexivity. Qed.

Example test_POST_blob_request :
  nth_error
    (trace (doRpc integerToJSON "POST" "http://127.0.0.1/"
              (Some (BlobBody blob_a1)) None
              (completes response_200_json_empty_object))) 1
  = Some (Fetch "http://127.0.0.1/"
            {| cache := "no-store";
               credentials := "omit";
               req_headers := Some [("content-type", "application/json")];
               method := "POST";
               redirect := "error";
               body := Some (BodyString "{}") |}).
Proof. reflexivity. Qed.

Example caller_content_type_wins :
  req_headers
    (doFetch_options integerToJSON "POST" (Some (JsonBody (JObject [])))
       (Some {| timeout_ms := None;
                opt_headers := Some [("content-type", "text/x-json");
                                     ("header1", "val1")] |}))
  = Some [("content-type", "text/x-json"); ("header1", "val1")].
Proof. reflexivity. Qed.

(** * Further properties of the code *)

(** ** The error classes *)

(** An error value is an instance of its own class and of [RpcError],
    [Error] and [Object], and of no other class: the four exported kinds
    exclude one another. *)
Theorem instanceof_characterised (e : RpcError) (c : Class) :
  instanceof e c = true
  <-> c = class_of e \/ c = RpcErrorClass \/ c = ErrorClass \/ c = ObjectClass.
Proof.
  destruct e, c; vm_compute; split; intros H;
    try reflexivity; try discriminate; auto;
    repeat (destruct H as [H|H]; try discriminate H); discriminate H.
Qed.

(** ** The headers record of the request *)







(** ** More on the dispatcher and the classifier *)
Section Pipeline.

Variable JsNumber : Type.
Variable numberToJSON : JsNumber -> string.

Implicit Types (events : list (Event JsNumber)) (r : Response JsNumber).
Implicit Types (body : option (BodyArg JsNumber)) (opts : option Opts).


(** The aborts in a run of [await_fetch]: one, when the timer fires for the
    first time. *)
Lemma await_fetch_trace events timedOut :
  trace (snd (await_fetch timedOut events))
  = if negb timedOut && timer_fired_first events then [Abort] else [].
Proof.
  revert timedOut. induction events as [|ev rest IH]; intros timedOut.
  - simpl. rewrite andb_false_r. reflexivity.
  - destruct ev as [|[r|e]]; simpl.
    + specialize (IH true). simpl in IH.
      destruct timedOut; simpl.
      * exact IH.
      * destruct (await_fetch true rest) as [b [o t]]. simpl in *.
        rewrite IH. reflexivity.
    + rewrite andb_false_r. reflexivity.
    + rewrite andb_false_r. reflexivity.
Qed.

Lemma await_fetch_outcome events timedOut :
  outcome (snd (await_fetch timedOut events))
  = match first_settlement events with
    | Some (Fulfilled r) => Returned r
    | Some (RejectedWith e) => Thrown e
    | None => Pending
    end.
Proof.
  revert timedOut. induction events as [|ev rest IH]; intros timedOut.
  - reflexivity.
  - destruct ev as [|[r|e]]; simpl; try reflexivity.
    specialize (IH true).
    destruct timedOut; simpl; [exact IH|].
    destruct (await_fetch true rest) as [b [o t]]. exact IH.
Qed.

(** The trace of [doFetch] once the fetch has settled. *)
Lemma doFetch_trace_when_settled method url body opts events s :
  first_settlement events = Some s ->
  trace (doFetch numberToJSON method url body opts events)
  = (SetTimeout (doFetch_timeout_ms opts)
       :: Fetch url (doFetch_options numberToJSON method body opts)
       :: (if timer_fired_first events then [Abort] else [])
          ++ [ClearTimeout])%list.
Proof.
  intros Hs. unfold doFetch.
  pose proof (await_fetch_trace events false) as Ht.
  pose proof (await_fetch_outcome events false) as Ho.
  rewrite Hs in Ho.
  destruct (await_fetch false events) as [b [o t]]. simpl in Ht, Ho. subst t.
  destruct s as [r|e]; subst o; destruct b, (timer_fired_first events);
    reflexivity.
Qed.

(** Whenever the fetch settles, fulfilled or rejected, [doFetch] has armed
    the timer, sent one request, aborted it once if and only if the timer
    fired first, and cleared the timer as its last action. *)
Theorem doFetch_settled_trace method url body opts events s :
  first_settlement events = Some s ->
  trace (doFetch numberToJSON method url body opts events)
  = (SetTimeout (doFetch_timeout_ms opts)
       :: Fetch url (doFetch_options numberToJSON method body opts)
       :: (if timer_fired_first events then [Abort] else [])
          ++ [ClearTimeout])%list.
Proof. apply doFetch_trace_when_settled. Qed.

(** A fetch that never settles leaves [doRpc] pending, and the timer is
    not cleared. *)
Lemma doRpc_pending method url body opts events :
  first_settlement events = None ->
  outcome (doRpc numberToJSON method url body opts events) = Pending.
Proof.
  intros Hs. unfold doRpc, doFetch.
  pose proof (await_fetch_outcome events false) as Ho. rewrite Hs in Ho.
  destruct (await_fetch false events) as [b [o t]]. simpl in Ho. subst o.
  reflexivity.
Qed.

Lemma doRpc_rejected method url body opts events e :
  first_settlement events = Some (RejectedWith e) ->
  outcome (doRpc numberToJSON method url body opts events)
  = Thrown (Rpc (if timer_fired_first events then TimeoutError
                 else NetworkError)).
Proof.
  intros Hf.
  pose proof (doFetch_rejected _ numberToJSON method url body opts events e Hf)
    as Ho.
  unfold doRpc.
  destruct (doFetch numberToJSON method url body opts events) as [o t].
  simpl in Ho. subst o. reflexivity.
Qed.

Lemma text_plain_is_not_json (s : string) :
  JsString.startsWith s "text/plain" = true ->
  JsString.startsWith s "application/json" = false.
Proof.
  unfold JsString.startsWith. destruct s as [|c s']; [discriminate|].
  cbn [String.prefix].
  destruct (ascii_dec "t" c) as [E|E]; [|discriminate].
  subst c. intros _. reflexivity.
Qed.

(** Rewrite [doRpc] on a fulfilled fetch as the classification that
    follows [doFetch], keeping the trace of [doFetch] as it is. *)
Ltac fetched H :=
  match goal with
  | |- context [doRpc ?nj ?m ?u ?b ?o ?ev] =>
      let t0 := fresh "t0" in
      let Efetch := fresh "Efetch" in
      let Ht0 := fresh "Ht0" in
      destruct (doFetch_fulfilled _ nj m u b o ev _ H) as (t0 & Efetch & Ht0);
      unfold doRpc; rewrite Efetch;
      rewrite ?outcome_bind_returned, ?trace_bind_returned
  end.

(** Split a goal along every test the classifier makes, innermost first. *)
Ltac classify :=
  repeat (cbv beta iota zeta
            delta [readJsonObject tryReadJsonObject tryReadText res_json
                   res_text user_error_message await bind try_catch ret throw
                   perform outcome fst];
          match goal with
          | |- context [match ?x with _ => _ end] =>
              lazymatch x with
              | context [match _ with _ => _ end] => fail
              | _ => destruct x eqn:?
              end
          end);
  cbv beta iota zeta delta [outcome fst].

(** A 2xx response with a declared body and a JSON content-type whose body
    decodes to a value of type "object" makes [doRpc] return exactly that
    value, after one read of the body as JSON and nothing else. *)
Theorem doRpc_2xx_returns_decoded_object method url body opts events r v :
  first_settlement events = Some (Fulfilled r) ->
  200 <= status r <= 299 ->
  hasBody r = true ->
  JsString.startsWith (contentTypeHeader r) "application/json" = true ->
  json r = Some (Fulfilled v) ->
  typeof v = "object" ->
  outcome (doRpc numberToJSON method url body opts events) = Returned v
  /\ trace (doRpc numberToJSON method url body opts events)
     = (trace (doFetch numberToJSON method url body opts events)
        ++ [ReadJson])%list.
Proof.
  intros Hf Hs Hb Hct Hj Hty. fetched Hf.
  rewrite (status_2xx _ r Hs), Hb. unfold readJsonObject, res_json.
  rewrite Hct, Hj. simpl. rewrite Hty. simpl. auto.
Qed.

(** On a status outside [200,299], a declared body with a content-type that
    starts with text/plain, once read, is appended to the status line in
    the ServerError, which carries the status; the body is not read as
    JSON. *)
Theorem doRpc_failure_text_plain method url body opts events r t :
  first_settlement events = Some (Fulfilled r) ->
  ~ 200 <= status r <= 299 ->
  hasBody r = true ->
  JsString.startsWith (contentTypeHeader r) "text/plain" = true ->
  text r = Some (Fulfilled t) ->
  outcome (doRpc numberToJSON method url body opts events)
  = Thrown (Rpc (new_ServerError
      (JsString.ofInteger (status r) ++ " " ++ statusText r ++ ", " ++ t)
      (Some (status r))))
  /\ trace (doRpc numberToJSON method url body opts events)
     = (trace (doFetch numberToJSON method url body opts events)
        ++ [ReadText])%list.
Proof.
  intros Hf Hs Hb Hct Ht. fetched Hf.
  rewrite (status_not_2xx _ r Hs).
  unfold tryReadJsonObject, tryReadText, res_text.
  rewrite Hb, (text_plain_is_not_json _ Hct), Hct, Ht. simpl. auto.
Qed.

(** On a status outside [200,299], a rejected body read, as JSON or as
    text, is logged and swallowed: [doRpc] throws the ServerError made of
    the status line alone. *)
Theorem doRpc_failure_read_rejection_swallowed
    method url body opts events r e :
  first_settlement events = Some (Fulfilled r) ->
  ~ 200 <= status r <= 299 ->
  hasBody r = true ->
  (JsString.startsWith (contentTypeHeader r) "application/json" = true
   /\ json r = Some (RejectedWith e))
  \/ (JsString.startsWith (contentTypeHeader r) "text/plain" = true
      /\ text r = Some (RejectedWith e)) ->
  outcome (doRpc numberToJSON method url body opts events)
  = Thrown (Rpc (new_ServerError
      (JsString.ofInteger (status r) ++ " " ++ statusText r)
      (Some (status r))))
  /\ In (ConsoleError e)
       (trace (doRpc numberToJSON method url body opts events)).
Proof.
  intros Hf Hs Hb [[Hct Hj]|[Hct Ht]]; fetched Hf;
    rewrite (status_not_2xx _ r Hs);
    unfold tryReadJsonObject, tryReadText, res_json, res_text; rewrite Hb.
  - rewrite Hct, Hj. simpl.
    destruct (JsString.startsWith (contentTypeHeader r) "text/plain") eqn:Htp.
    + rewrite (text_plain_is_not_json _ Htp) in Hct. discriminate.
    + simpl. split; [reflexivity|]. apply in_or_app. right. simpl. auto.
  - rewrite (text_plain_is_not_json _ Hct), Hct, Ht. simpl.
    split; [reflexivity|]. apply in_or_app. right. simpl. auto.
Qed.

(** The timer guards the fetch only: once the response is there the timer
    is cleared, and a 2xx body that never arrives leaves [doRpc] pending
    for good. *)
Theorem doRpc_stalled_body_is_not_timed_out method url body opts events r :
  first_settlement events = Some (Fulfilled r) ->
  200 <= status r <= 299 ->
  hasBody r = true ->
  JsString.startsWith (contentTypeHeader r) "application/json" = true ->
  json r = None ->
  outcome (doRpc numberToJSON method url body opts events) = Pending
  /\ exists t,
       trace (doRpc numberToJSON method url body opts events)
       = (t ++ [ClearTimeout; ReadJson])%list.
Proof.
  intros Hf Hs Hb Hct Hj.
  pose proof (doFetch_trace_when_settled method url body opts events _ Hf)
    as Ht.
  fetched Hf. rewrite Efetch in Ht. simpl in Ht. subst t0.
  rewrite (status_2xx _ r Hs), Hb. unfold readJsonObject, res_json.
  rewrite Hct, Hj. simpl. split; [reflexivity|].
  eexists (_ :: _ :: _). simpl. rewrite <- app_assoc. reflexivity.
Qed.

(** A [user_error_message] that is not a string does not make a UserError:
    [doRpc] throws the ServerError made of the status line. *)
Theorem doRpc_user_error_message_must_be_string
    method url body opts events r properties :
  first_settlement events = Some (Fulfilled r) ->
  ~ 200 <= status r <= 299 ->
  outcome (tryReadJsonObject r) = Returned (Some (JObject properties)) ->
  (forall s, own_property "user_error_message" properties <> Some (JString s)) ->
  outcome (doRpc numberToJSON method url body opts events)
  = Thrown (Rpc (new_ServerError
      (JsString.ofInteger (status r) ++ " " ++ statusText r)
      (Some (status r)))).
Proof.
  intros Hf Hs Hj Hp. fetched Hf. rewrite (status_not_2xx _ r Hs).
  revert Hj. unfold tryReadJsonObject, tryReadText, res_json.
  destruct (hasBody r); simpl; [|discriminate].
  destruct (JsString.startsWith (contentTypeHeader r) "application/json")
    eqn:Hct; simpl; [|discriminate].
  assert (Htp : JsString.startsWith (contentTypeHeader r) "text/plain" = false).
  { destruct (JsString.startsWith (contentTypeHeader r) "text/plain") eqn:E;
      [|reflexivity].
    rewrite (text_plain_is_not_json _ E) in Hct. discriminate. }
  rewrite Htp.
  destruct (json r) as [[v|x]|]; simpl; try discriminate.
  destruct (negb (String.eqb (typeof v) "object")); simpl; [discriminate|].
  intros [= ->]. simpl.
  destruct (own_property "user_error_message" properties)
    as [[|b|n|s|l|q]|] eqn:E; simpl; try reflexivity.
  exfalso. apply (Hp s). reflexivity.
Qed.

(** On a 2xx response [doRpc] throws nothing but NetworkError or a
    ServerError without a status: never a UserError, a TimeoutError or one
    of the platform's own exceptions. *)
Theorem doRpc_2xx_throws_only_statusless_errors
    method url body opts events r x :
  first_settlement events = Some (Fulfilled r) ->
  200 <= status r <= 299 ->
  outcome (doRpc numberToJSON method url body opts events) = Thrown x ->
  x = Rpc NetworkError \/ exists m, x = Rpc (ServerError m None).
Proof.
  intros Hf Hs. fetched Hf. rewrite (status_2xx _ r Hs).
  classify; intros [= <-];
    first [left; reflexivity | right; eexists; reflexivity].
Qed.

(** A response whose status is outside [200,299] never becomes a result. *)
Theorem doRpc_non_2xx_never_returns method url body opts events r v :
  first_settlement events = Some (Fulfilled r) ->
  ~ 200 <= status r <= 299 ->
  outcome (doRpc numberToJSON method url body opts events) <> Returned v.
Proof.
  intros Hf Hs. fetched Hf. rewrite (status_not_2xx _ r Hs).
  classify; discriminate.
Qed.

(** [doRpc] throws TimeoutError exactly when the fetch was rejected after
    the timer had fired; a response that arrives is classified even if the
    timer fired before it. *)
Theorem doRpc_TimeoutError_iff method url body opts events :
  outcome (doRpc numberToJSON method url body opts events)
  = Thrown (Rpc TimeoutError)
  <-> timer_fired_first events = true
      /\ exists e, first_settlement events = Some (RejectedWith e).
Proof.
  destruct (first_settlement events) as [[r|e]|] eqn:Hf.
  - split.
    + fetched Hf. classify; discriminate.
    + intros [_ [e [=]]].
  - rewrite (doRpc_rejected method url body opts events e Hf). split.
    + destruct (timer_fired_first events); [eauto|discriminate].
    + intros [-> _]. reflexivity.
  - rewrite (doRpc_pending method url body opts events Hf). split.
    + discriminate.
    + intros [_ [e [=]]].
Qed.

(** Every ServerError that leaves [doRpc] has a message that starts with
    [Error talking to server: ]. *)
Theorem doRpc_ServerError_message_prefixed
    method url body opts events m st :
  outcome (doRpc numberToJSON method url body opts events)
  = Thrown (Rpc (ServerError m st)) ->
  JsString.startsWith m "Error talking to server: " = true.
Proof.
  destruct (first_settlement events) as [[r|e]|] eqn:Hf.
  - fetched Hf. classify; intros [= <- <-]; try reflexivity;
      unfold JsString.startsWith; simpl;
      match goal with |- prefix EmptyString ?s = true => destruct s end;
      reflexivity.
  - rewrite (doRpc_rejected method url body opts events e Hf).
    destruct (timer_fired_first events); discriminate.
  - rewrite (doRpc_pending method url body opts events Hf). discriminate.
Qed.

(** An error that leaves [doRpc] with a status carries the status of the
    response, and that status is outside [200,299]. *)
Theorem doRpc_error_status_is_response_status
    method url body opts events e st :
  outcome (doRpc numberToJSON method url body opts events) = Thrown (Rpc e) ->
  status_of e = Some st ->
  exists r,
    first_settlement events = Some (Fulfilled r)
    /\ status r = st
    /\ ~ 200 <= st <= 299.
Proof.
  destruct (first_settlement events) as [[r|x]|] eqn:Hf.
  - intros Ho He. exists r. split; [reflexivity|]. revert Ho.
    fetched Hf.
    destruct ((200 <=? status r) && (status r <=? 299)) eqn:Hs.
    + classify; intros [= <-]; discriminate.
    + assert (Hn : ~ 200 <= status r <= 299).
      { intros [H1 H2]. apply Z.leb_le in H1, H2. rewrite H1, H2 in Hs.
        discriminate. }
      classify; intros [= <-]; simpl in He; injection He as <-; auto.
  - rewrite (doRpc_rejected method url body opts events x Hf).
    destruct (timer_fired_first events); intros [= <-]; discriminate.
  - rewrite (doRpc_pending method url body opts events Hf). discriminate.
Qed.

Lemma filter_reads_none (t : list Effect) :
  reads_body t = false ->
  filter (fun eff => match eff with
                     | ReadJson | ReadText => true
                     | _ => false
                     end) t = [].
Proof.
  induction t as [|eff t IH]; simpl; [reflexivity|].
  destruct eff; simpl; try discriminate; exact IH.
Qed.

(** Whatever the response, [doRpc] reads its body at most once: never as
    JSON and as text both, and never twice. *)
Theorem doRpc_reads_body_at_most_once method url body opts events r :
  first_settlement events = Some (Fulfilled r) ->
  (List.length
     (filter (fun eff => match eff with
                         | ReadJson | ReadText => true
                         | _ => false
                         end)
        (trace (doRpc numberToJSON method url body opts events)))
   <= 1)%nat.
Proof.
  intros Hf. fetched Hf.
  rewrite filter_app, (filter_reads_none t0 Ht0). cbn [app].
  unfold tryReadJsonObject, tryReadText.
  destruct (JsString.startsWith (contentTypeHeader r) "text/plain") eqn:Htp.
  - rewrite (text_plain_is_not_json _ Htp).
    destruct ((200 <=? status r) && (status r <=? 299)), (hasBody r);
      unfold readJsonObject, res_text; rewrite ?(text_plain_is_not_json _ Htp);
      simpl; try lia.
    destruct (text r) as [[tx|x]|]; simpl; lia.
  - destruct ((200 <=? status r) && (status r <=? 299)), (hasBody r);
      unfold readJsonObject, res_json; simpl; try lia;
      destruct (JsString.startsWith (contentTypeHeader r) "application/json");
      simpl; try lia;
      destruct (json r) as [[v|x]|]; simpl; try lia.
    + destruct (negb (String.eqb (typeof v) "object")); simpl; lia.
    + destruct (instanceof_SyntaxError x); simpl; lia.
    + destruct v as [|b|n|s|l|props]; simpl; try lia.
      destruct (own_property "user_error_message" props) as [[|b|n|s|l|q]|];
        simpl; lia.
Qed.

End Pipeline.

(** ** [parseInt], [hasBody] and the decimal text of an integer *)

Lemma leadingDigits_numeral (d : Decimal.uint) (acc : Z) :
  JsString.leadingDigits 10 (Some acc) (NilEmpty.string_of_uint d)
  = Some (decimal_value acc d).
Proof.
  revert acc. induction d; intros acc; simpl; try reflexivity; apply IHd.
Qed.

Lemma decimal_value_of_uint_acc (d : Decimal.uint) (acc : positive) :
  decimal_value (Z.pos acc) d = Z.pos (Pos.of_uint_acc d acc).
Proof.
  revert acc.
  induction d; intros acc; cbn [decimal_value Pos.of_uint_acc];
    try reflexivity; rewrite <- IHd; f_equal; lia.
Qed.

Lemma decimal_value_of_uint (d : Decimal.uint) :
  decimal_value 0 d = Z.of_N (Pos.of_uint d).
Proof.
  induction d; simpl; try reflexivity; try exact IHd;
    apply decimal_value_of_uint_acc.
Qed.

Lemma parseInt_numeral (d : Decimal.uint) :
  d <> Decimal.Nil ->
  parseInt (NilEmpty.string_of_uint d) = Int (decimal_value 0 d)
  /\ parseInt (String "-" (NilEmpty.string_of_uint d))
     = Int (- decimal_value 0 d).
Proof.
  intros Hd.
  assert (H : forall sign,
             (let '(radix, s3) :=
                match NilEmpty.string_of_uint d with
                | String "0" (String "x" r) => (16, r)
                | String "0" (String "X" r) => (16, r)
                | _ => (10, NilEmpty.string_of_uint d)
                end in
              match JsString.leadingDigits radix None s3 with
              | None => NaN
              | Some m => Int (sign * m)
              end) = Int (sign * decimal_value 0 d)).
  { intros sign.
    destruct d as [|l|l|l|l|l|l|l|l|l|l]; [congruence|..];
      try (cbn -[Z.mul]; rewrite leadingDigits_numeral; reflexivity).
    destruct l; cbn -[Z.mul]; rewrite ?leadingDigits_numeral; reflexivity. }
  split.
  - specialize (H 1). rewrite Z.mul_1_l in H. rewrite <- H. clear H.
    destruct d; [congruence|..]; reflexivity.
  - specialize (H (-1)).
    replace (-1 * decimal_value 0 d) with (- decimal_value 0 d) in H by lia.
    rewrite <- H. reflexivity.
Qed.

(** [parseInt] reads back the decimal text of every integer. *)
Theorem parseInt_ofInteger (z : Z) : parseInt (JsString.ofInteger z) = Int z.
Proof.
  destruct z as [|p|p]; [reflexivity|..]; unfold JsString.ofInteger; simpl;
    pose proof (DecimalPos.Unsigned.to_uint_nonnil p) as Hn;
    destruct (parseInt_numeral (Pos.to_uint p) Hn) as [Hpos Hneg];
    unfold NilZero.string_of_uint;
    destruct (Pos.to_uint p) eqn:E; try congruence;
    rewrite <- E in *;
    rewrite ?Hpos, ?Hneg, decimal_value_of_uint,
      DecimalPos.Unsigned.of_to; reflexivity.
Qed.

(** A response whose content-length is the decimal text of an integer has a
    body exactly when that integer is positive. *)
Theorem hasBody_decimal_content_length
    (JsNumber : Type) (r : Response JsNumber) (n : Z) :
  Headers_get (headers r) "content-length" = Some (JsString.ofInteger n) ->
  hasBody r = (0 <? n).
Proof. unfold hasBody. intros ->. rewrite parseInt_ofInteger. reflexivity. Qed.

(** ** The further properties on concrete runs *)


Lemma doFetch_settled_trace_witness :
  trace (doFetch integerToJSON "GET" "http://127.0.0.1/" None
           (Some {| timeout_ms := Some 100; opt_headers := None |})
           [TimerFires; FetchSettles (RejectedWith (Native JsAbortError))])
  = [SetTimeout 100;
     Fetch "http://127.0.0.1/"
       {| cache := "no-store"; credentials := "omit"; req_headers := None;
          method := "GET"; redirect := "error"; body := None |};
     Abort; ClearTimeout].
Proof.
  apply (doFetch_settled_trace Z integerToJSON "GET" "http://127.0.0.1/" None
           (Some {| timeout_ms := Some 100; opt_headers := None |})
           [TimerFires; FetchSettles (RejectedWith (Native JsAbortError))]
           (RejectedWith (Native JsAbortError))).
  reflexivity.
Defined.

Lemma doRpc_2xx_returns_decoded_object_witness :
  outcome (doRpc integerToJSON "GET" "http://127.0.0.1/" None None
             (completes response_200_json_object))
  = Returned (JObject [("a", JNumber 1)]).
Proof.
  apply (doRpc_2xx_returns_decoded_object Z integerToJSON "GET"
           "http://127.0.0.1/" None None (completes response_200_json_object)
           response_200_json_object (JObject [("a", JNumber 1)])).
  - reflexivity.
  - simpl. lia.
  - reflexivity.
  - reflexivity.
  - reflexivity.
  - reflexivity.
Defined.

Lemma doRpc_failure_text_plain_witness :
  outcome (doRpc integerToJSON "GET" "http://127.0.0.1/" None None
             (completes response_400_text))
  = Thrown (Rpc (new_ServerError "400 Bad Request, err1" (Some 400))).
Proof.
  apply (doRpc_failure_text_plain Z integerToJSON "GET" "http://127.0.0.1/"
           None None (completes response_400_text) response_400_text "err1").
  - reflexivity.
  - simpl. lia.
  - reflexivity.
  - reflexivity.
  - reflexivity.
Defined.

Lemma doRpc_failure_read_rejection_swallowed_witness :
  outcome (doRpc integerToJSON "GET" "http://127.0.0.1/" None None
             (completes response_400_truncated_text))
  = Thrown (Rpc (new_ServerError "400 Bad Request" (Some 400))).
Proof.
  destruct (doRpc_failure_read_rejection_swallowed Z integerToJSON "GET"
              "http://127.0.0.1/" None None
              (completes response_400_truncated_text)
              response_400_truncated_text (Native (JsTypeError "terminated")))
    as [Ho _].
  - reflexivity.
  - simpl. lia.
  - reflexivity.
  - right. split; reflexivity.
  - exact Ho.
Defined.

Lemma doRpc_stalled_body_is_not_timed_out_witness :
  outcome (doRpc integerToJSON "GET" "http://127.0.0.1/" None None
             (FetchSettles (Fulfilled response_200_stalled)
              :: TimerFires :: nil))
  = Pending.
Proof.
  apply (doRpc_stalled_body_is_not_timed_out Z integerToJSON "GET"
           "http://127.0.0.1/" None None
           (FetchSettles (Fulfilled response_200_stalled) :: TimerFires :: nil)
           response_200_stalled).
  - reflexivity.
  - simpl. lia.
  - reflexivity.
  - reflexivity.
  - reflexivity.
Defined.

Lemma doRpc_user_error_message_must_be_string_witness :
  outcome (doRpc integerToJSON "GET" "http://127.0.0.1/" None None
             (completes response_400_numeric_message))
  = Thrown (Rpc (new_ServerError "400 Bad Request" (Some 400))).
Proof.
  apply (doRpc_user_error_message_must_be_string Z integerToJSON "GET"
           "http://127.0.0.1/" None None
           (completes response_400_numeric_message)
           response_400_numeric_message
           [("user_error_message", JNumber 7)]).
  - reflexivity.
  - simpl. lia.
  - reflexivity.
  - intros s. discriminate.
Defined.

Lemma doRpc_2xx_throws_only_statusless_errors_witness :
  Rpc (new_ServerError "server returned malformed json data" None)
  = Rpc NetworkError
  \/ exists m,
       Rpc (new_ServerError "server returned malformed json data" None)
       = Rpc (ServerError m None).
Proof.
  apply (doRpc_2xx_throws_only_statusless_errors Z integerToJSON "GET"
           "http://127.0.0.1/" None None
           (completes response_200_invalid_json) response_200_invalid_json).
  - reflexivity.
  - simpl. lia.
  - reflexivity.
Defined.

Lemma doRpc_non_2xx_never_returns_witness :
  outcome (doRpc integerToJSON "GET" "http://127.0.0.1/" None None
             (completes response_400_user_error))
  <> Returned (JObject [("user_error_message", JString "err1")]).
Proof.
  apply (doRpc_non_2xx_never_returns Z integerToJSON "GET" "http://127.0.0.1/"
           None None (completes response_400_user_error)
           response_400_user_error).
  - reflexivity.
  - simpl. lia.
Defined.

Lemma doRpc_ServerError_message_prefixed_witness :
  JsString.startsWith "Error talking to server: 400 Bad Request, err1"
    "Error talking to server: " = true.
Proof.
  apply (doRpc_ServerError_message_prefixed Z integerToJSON "GET"
           "http://127.0.0.1/" None None (completes response_400_text)
           "Error talking to server: 400 Bad Request, err1" (Some 400)).
  reflexivity.
Defined.

Lemma doRpc_error_status_is_response_status_witness :
  exists r,
    first_settlement (completes response_400_user_error)
    = Some (Fulfilled r)
    /\ status r = 400
    /\ ~ 200 <= 400 <= 299.
Proof.
  apply (doRpc_error_status_is_response_status Z integerToJSON "GET"
           "http://127.0.0.1/" None None (completes response_400_user_error)
           (UserError "err1" 400) 400).
  - reflexivity.
  - reflexivity.
Defined.

Lemma doRpc_failure_path_classified_witness :
  exists e,
    outcome (doRpc integerToJSON "GET" "http://127.0.0.1/" None None
               (completes response_400_text))
    = Thrown (Rpc e)
    /\ (class_of e = UserErrorClass \/ class_of e = ServerErrorClass)
    /\ status_of e = Some 400.
Proof.
  apply (doRpc_failure_path_classified Z integerToJSON "GET"
           "http://127.0.0.1/" None None (completes response_400_text)
           response_400_text).
  - reflexivity.
  - simpl. lia.
  - discriminate.
  - discriminate.
  - discriminate.
Defined.

Lemma doRpc_reads_body_at_most_once_witness :
  (List.length
     (filter (fun eff => match eff with
                         | ReadJson | ReadText => true
                         | _ => false
                         end)
        (trace (doRpc integerToJSON "GET" "http://127.0.0.1/" None None
                  (completes response_400_text))))
   <= 1)%nat.
Proof.
  apply (doRpc_reads_body_at_most_once Z integerToJSON "GET"
           "http://127.0.0.1/" None None (completes response_400_text)
           response_400_text).
  reflexivity.
Defined.

Lemma hasBody_decimal_content_length_witness :
  hasBody response_200_json_object = true.
Proof.
  apply (hasBody_decimal_content_length Z response_200_json_object 7).
  reflexivity.
Defined.
